(** * Resilient request client: retry executor and fallback/cache coordinator

  Shallow embedding of [internal/network/network_handler.py]:
  the class [NetworkHandler] (retry loop with exponential backoff and
  rate-limit cooperation) and the class [NetworkFailureHandler]
  (fallback substitution and memoisation of results).

  Effects are explicit.  The two observable effects of the module are
  calls of [requests.request] and calls of [time.sleep]; both are recorded
  in a [World].  Python exceptions are the [Raise] outcome of a
  computation; the state reached when the exception was raised is kept,
  as in Python.

  Durations are rationals.  The only arithmetic the module does on them
  is the product of the base delay with a power of two, which is modelled
  exactly. *)

From Stdlib Require Import ZArith QArith List String Ascii Bool Lia.
From stdpp Require Import base option gmap strings.
From Equations Require Import Equations.
Import ListNotations.

Set Warnings "-register-all".
Local Open Scope Z_scope.
Local Open Scope string_scope.

(** ** Python values and builtins *)

Module Py.

(** The structured values that travel through the module: what
    [response.json()] yields and what callers register as fallback data.
    [PyNone] is Python's [None]; JSON [null] decodes to it. *)
Inductive pyval : Type :=
| PyNone
| PyBool (b : bool)
| PyInt (z : Z)
| PyFloat (q : Q)
| PyStr (s : string)
| PyList (l : list pyval)
| PyDict (d : list (string * pyval)).

(** A [dict] with string keys, in insertion order. *)
Definition dict : Type := list (string * pyval).

(** Truth value of an object, as tested by [if x:]. *)
Definition truthy (v : pyval) : bool :=
  match v with
  | PyNone => false
  | PyBool b => b
  | PyInt z => negb (z =? 0)%Z
  | PyFloat q => negb (Qeq_bool q 0)
  | PyStr s => negb (String.eqb s "")
  | PyList l => match l with [] => false | _ :: _ => true end
  | PyDict d => match d with [] => false | _ :: _ => true end
  end.

Definition is_none (v : pyval) : bool :=
  match v with PyNone => true | _ => false end.

(** Exception classes that the handlers of [make_request] tell apart.
    [requests.exceptions]: [Timeout], [ConnectionError] derive from
    [RequestException]; [ReadTimeout] derives from [Timeout];
    [ConnectTimeout] derives from both [ConnectionError] and [Timeout].
    [ValueError] and [OtherException] stand for subclasses of
    [Exception] outside the [requests] hierarchy. *)
Inductive exn : Type :=
| Timeout
| ReadTimeout
| ConnectTimeout
| ConnectionError
| RequestException
| ValueError
| OtherException.

Inductive exn_class : Type :=
| CTimeout
| CConnectionError
| CRequestException
| CValueError
| CException.

Definition isinstance (e : exn) (c : exn_class) : bool :=
  match c, e with
  | CTimeout, (Timeout | ReadTimeout | ConnectTimeout) => true
  | CConnectionError, (ConnectTimeout | ConnectionError) => true
  | CRequestException,
    (Timeout | ReadTimeout | ConnectTimeout | ConnectionError | RequestException) => true
  | CValueError, ValueError => true
  | CException, _ => true
  | _, _ => false
  end.

(** [str.upper()] on ASCII letters. *)
Definition upper_ascii (c : ascii) : ascii :=
  let n := nat_of_ascii c in
  if ((97 <=? n)%nat && (n <=? 122)%nat)%bool then ascii_of_nat (n - 32) else c.

Fixpoint upper (s : string) : string :=
  match s with
  | EmptyString => EmptyString
  | String c s' => String (upper_ascii c) (upper s')
  end.

(** [int(s)] for a string [s]: surrounding whitespace is stripped, an
    optional sign is read, then decimal digits, where single underscores
    may separate digits.  [None] stands for [ValueError]. *)
Definition is_space (c : ascii) : bool :=
  let n := nat_of_ascii c in
  (((9 <=? n)%nat && (n <=? 13)%nat) || ((28 <=? n)%nat && (n <=? 32)%nat))%bool.

Definition digit_of (c : ascii) : option Z :=
  let n := nat_of_ascii c in
  if ((48 <=? n)%nat && (n <=? 57)%nat)%bool then Some (Z.of_nat (n - 48)) else None.

Fixpoint lstrip (l : list ascii) : list ascii :=
  match l with
  | c :: l' => if is_space c then lstrip l' else l
  | [] => []
  end.

Definition strip (l : list ascii) : list ascii :=
  rev (lstrip (rev (lstrip l))).

Fixpoint int_digits (acc : Z) (after_digit : bool) (l : list ascii) : option Z :=
  match l with
  | [] => if after_digit then Some acc else None
  | c :: l' =>
      match digit_of c with
      | Some d => int_digits (10 * acc + d) true l'
      | None =>
          if (Ascii.eqb c "_" && after_digit)%bool
          then int_digits acc false l'
          else None
      end
  end.

Definition int_of_str (s : string) : option Z :=
  match strip (list_ascii_of_string s) with
  | c :: l' =>
      if Ascii.eqb c "-" then option_map Z.opp (int_digits 0 false l')
      else if Ascii.eqb c "+" then int_digits 0 false l'
      else int_digits 0 false (c :: l')
  | [] => None
  end.

(** [int(x)] for a float [x]: truncation toward zero. *)
Definition int_of_float (q : Q) : Z := Z.quot (Qnum q) (Zpos (Qden q)).

End Py.
Export Py.

(** ** Effects: transport calls, sleeps and exceptions *)

Module Eff.

Inductive Result (A : Type) : Type :=
| Ok (a : A)
| Raise (e : exn).
Arguments Ok {A} a.
Arguments Raise {A} e.

(** What a run has done so far: how many times [requests.request] was
    invoked and which durations were passed to [time.sleep], oldest
    first. *)
Record World : Type := mkWorld { calls : nat; sleeps : list Q }.

Definition M (A : Type) : Type := World -> Result A * World.

Definition ret {A} (a : A) : M A := fun w => (Ok a, w).

Definition bind {A B} (c : M A) (k : A -> M B) : M B :=
  fun w => match c w with
           | (Ok a, w') => k a w'
           | (Raise e, w') => (Raise e, w')
           end.

Definition raise {A} (e : exn) : M A := fun w => (Raise e, w).

Definition lift {A} (r : Result A) : M A := fun w => (r, w).

(** [try: c  except Exception as e: h e] *)
Definition try_except {A} (c : M A) (h : exn -> M A) : M A :=
  fun w => match c w with
           | (Ok a, w') => (Ok a, w')
           | (Raise e, w') => h e w'
           end.

(** [time.sleep(d)]: a negative duration raises [ValueError]. *)
Definition time_sleep (d : Q) : M unit :=
  fun w => if Qle_bool 0 d
           then (Ok tt, mkWorld (calls w) (sleeps w ++ [d]))
           else (Raise ValueError, w).

End Eff.
Export Eff.

Declare Scope eff_scope.
Delimit Scope eff_scope with eff.
Notation "x <- c ;; k" := (bind c (fun x => k))
(at level 100, c at next level, right associativity) : eff_scope.
Notation "c ;;; k" := (bind c (fun _ => k))
(at level 100, right associativity) : eff_scope.

Local Open Scope eff_scope.

(** ** class NetworkHandler *)

Module NetworkHandler.

(** The keyword arguments of one [requests.request] call. *)
Record Request : Type := mkRequest {
  req_method : string;
  req_url : string;
  req_headers : list (string * string);
  req_json : dict;
  req_params : dict;
  req_timeout : Q
}.

(** The part of a [requests.Response] that [make_request] reads.
    [json = None] stands for [response.json()] raising [ValueError]
    (the body is not JSON); [json = Some v] for its returning [v]. *)
Record Response : Type := mkResponse {
  status_code : Z;
  headers : gmap string string;
  json : option pyval;
  text : string
}.

(** The network seen from the module: the outcome of the [i]-th invocation
    of [requests.request] (counting from 0 over the whole run), for the
    request it is given. *)
Definition Transport : Type := nat -> Request -> Result Response.

(** The attributes set by [__init__]. *)
Record t : Type := __init__ {
  max_retries : Z;
  base_delay : Q;
  timeout : Q
}.

(** [NetworkHandler()] with the default arguments. *)
Definition default : t := __init__ 3 1 10.

(** How one pass through the body of the [while] loop ends: by a [return],
    or by reaching the loop test again ([continue], or the end of an
    [except] clause). *)
Inductive flow : Type :=
| Return (v : pyval)
| Continue.

Section Methods.

Variable transport : Transport.
Variable self : t.

Definition requests_request (req : Request) : M Response :=
  fun w => (transport (calls w) req, mkWorld (S (calls w)) (sleeps w)).

(** [self.base_delay * (2 ** (attempt - 1))]; the exponent is never
    negative where the module evaluates it, since [attempt] is at least 1. *)
Definition backoff_delay (attempt : Z) : Q :=
  (base_delay self * inject_Z (2 ^ (attempt - 1)))%Q.

(** [_handle_retry(self, attempt, exception)] *)
Definition _handle_retry (attempt : Z) (exception : exn) : M unit :=
  if (attempt <=? max_retries self)%Z
  then time_sleep (backoff_delay attempt)
  else ret tt.

(** [int(response.headers.get('Retry-After', self.base_delay))].  The
    header is looked up under this exact name, as in the dictionary of a
    mocked response. *)
Definition retry_after (response : Response) : Result Z :=
  match headers response !! "Retry-After" with
  | Some s =>
      match int_of_str s with
      | Some z => Ok z
      | None => Raise ValueError
      end
  | None => Ok (int_of_float (base_delay self))
  end.

(** [try: return response.json()
     except ValueError: return {"status": "success", "data": response.text}] *)
Definition success_payload (response : Response) : pyval :=
  match json response with
  | Some v => v
  | None => PyDict [("status", PyStr "success"); ("data", PyStr (text response))]
  end.

(** The suite of the [try] statement in the loop body. *)
Definition try_suite (req : Request) : M flow :=
  response <- requests_request req ;;
  if (status_code response <? 400)%Z then ret (Return (success_payload response))
  else if (status_code response =? 429)%Z then
    secs <- lift (retry_after response) ;;
    (time_sleep (inject_Z secs) ;;;
     ret Continue)
  else ret (Return PyNone).

(** The [except] clauses, tried in the order of the source. *)
Definition except_clauses (attempt : Z) (e : exn) : M flow :=
  if isinstance e CTimeout then
    (_handle_retry attempt Timeout ;;; ret Continue)
  else if isinstance e CConnectionError then
    (_handle_retry attempt e ;;; ret Continue)
  else if isinstance e CRequestException then
    (_handle_retry attempt e ;;; ret Continue)
  else ret (Return PyNone).

Definition loop_body (req : Request) (attempt : Z) : M flow :=
  try_except (try_suite req) (except_clauses attempt).

(** [while attempt <= self.max_retries: attempt += 1; ...] followed by the
    final [return None].  The loop terminates because [attempt] grows by
    one on every pass. *)
Equations? while_loop (req : Request) (attempt : Z) (w : World)
  : Result pyval * World
  by wf (Z.to_nat (max_retries self + 1 - attempt)) lt :=
while_loop req attempt w with Z_le_gt_dec attempt (max_retries self) := {
  | left _ with loop_body req (attempt + 1) w := {
      | (Ok (Return v), w') := (Ok v, w');
      | (Ok Continue, w') := while_loop req (attempt + 1) w';
      | (Raise e, w') := (Raise e, w') };
  | right _ := (Ok PyNone, w) }.
Proof. lia. Qed.

Definition or_empty {A} (o : option (list A)) : list A :=
  match o with Some l => l | None => [] end.

(** The keyword arguments that [make_request] passes to
    [requests.request], after the [None] defaults are replaced. *)
Definition request_kwargs (method url : string)
    (headers : option (list (string * string)))
    (data params : option dict) : Request :=
  let headers := or_empty headers in
  let data := or_empty data in
  let params := or_empty params in
  mkRequest (upper method) url headers data params (timeout self).

Definition make_request (method url : string)
    (headers : option (list (string * string)))
    (data params : option dict) : M pyval :=
  while_loop (request_kwargs method url headers data params) 0.

Definition get (url : string) (headers : option (list (string * string)))
    (params : option dict) : M pyval :=
  make_request "GET" url headers None params.

Definition post (url : string) (headers : option (list (string * string)))
    (data params : option dict) : M pyval :=
  make_request "POST" url headers data params.

Definition put (url : string) (headers : option (list (string * string)))
    (data params : option dict) : M pyval :=
  make_request "PUT" url headers data params.

Definition delete (url : string) (headers : option (list (string * string)))
    (params : option dict) : M pyval :=
  make_request "DELETE" url headers None params.

End Methods.

End NetworkHandler.

(** ** class NetworkFailureHandler *)

Module NetworkFailureHandler.

(** The attributes of an instance.  [_cache] is created by the first
    store of [get_with_cache]; [None] stands for the attribute not being
    set ([hasattr(self, '_cache')] is false). *)
Record t : Type := mkHandler {
  network_handler : NetworkHandler.t;
  fallback_data : gmap string pyval;
  _cache : option (gmap string pyval)
}.

Definition __init__ (network_handler : NetworkHandler.t) : t :=
  mkHandler network_handler ∅ None.

Definition error_marker : pyval :=
  PyDict [("status", PyStr "error");
          ("message", PyStr "Network request failed");
          ("fallback", PyBool true)].

Definition no_data_marker : pyval :=
  PyDict [("status", PyStr "error");
          ("message", PyStr "No data available")].

(** [self.fallback_data[url] = data] *)
Definition set_fallback_data (self : t) (url : string) (data : pyval) : t :=
  mkHandler (network_handler self) (<[url := data]> (fallback_data self)) (_cache self).

Section Methods.

Variable transport : NetworkHandler.Transport.

(** Python's builtin [str] on the [params] argument. *)
Variable str : option dict -> string.

(** [fallback_data = None] stands for the argument being omitted. *)
Definition with_fallback (self : t) (method url : string)
    (fallback_data : pyval)
    (headers : option (list (string * string)))
    (data params : option dict) : M pyval :=
  result <- NetworkHandler.make_request transport (network_handler self)
              method url headers data params ;;
  if is_none result then
    if truthy fallback_data then ret fallback_data
    else ret error_marker
  else ret result.

(** [f"{url}_{str(params)}"] *)
Definition cache_key (url : string) (params : option dict) : string :=
  url +:+ "_" +:+ str params.

(** [hasattr(self, '_cache') and cache_key in getattr(self, '_cache', {})] *)
Definition cache_lookup (self : t) (key : string) : option pyval :=
  match _cache self with
  | Some c => c !! key
  | None => None
  end.

(** The store [self._cache[cache_key] = result], creating the attribute
    when it is missing. *)
Definition cache_store (self : t) (key : string) (result : pyval) : t :=
  let c := match _cache self with Some c => c | None => ∅ end in
  mkHandler (network_handler self) (fallback_data self) (Some (<[key := result]> c)).

(** [get_with_cache] returns its value together with the instance as the
    call leaves it. *)
Definition get_with_cache (self : t) (url : string)
    (headers : option (list (string * string)))
    (params : option dict) : M (pyval * t) :=
  let key := cache_key url params in
  match cache_lookup self key with
  | Some cached => ret (cached, self)
  | None =>
      result <- NetworkHandler.get transport (network_handler self) url headers params ;;
      let result :=
        match is_none result, fallback_data self !! url with
        | true, Some fb => fb
        | _, _ => result
        end in
      if negb (is_none result)
      then ret (result, cache_store self key result)
      else ret (no_data_marker, self)
  end.

End Methods.

End NetworkFailureHandler.

(** ** Concrete configurations and transports *)

Module Examples.

Import NetworkHandler.

(** [NetworkHandler(max_retries=2, base_delay=0.1, timeout=1.0)] *)
Definition handler_2 : t := __init__ 2 (1 # 10) 1.

Definition world0 : World := mkWorld 0 [].

Definition success_body : pyval := PyDict [("status", PyStr "success")].

(** A 200 response whose body decodes to [success_body]; [text] is not
    read when the body decodes. *)
Definition response_200 : Response :=
  mkResponse 200 ∅ (Some success_body) "".

(** A page that is not JSON, served with status 200. *)
Definition response_200_text : Response :=
  mkResponse 200 ∅ None "pong".

Definition response_500 : Response :=
  mkResponse 500 ∅ None "Internal Server Error".


(** Rate limited, with the HTTP-date form of [Retry-After]. *)
Definition response_429_date : Response :=
  mkResponse 429 {[ "Retry-After" := "Wed, 21 Oct 2015 07:28:00 GMT" ]} None "".

Definition always_timeout : Transport := fun _ _ => Raise Timeout.


Definition always_500 : Transport := fun _ _ => Ok response_500.

Definition always_200_text : Transport := fun _ _ => Ok response_200_text.

(** [k] timeouts, then a 200 response. *)
Definition timeouts_then_200 (k : nat) : Transport :=
  fun i _ => if (i <? k)%nat then Raise Timeout else Ok response_200.

(** One 429 with a date in [Retry-After], then a 200 response. *)
Definition date_429_then_200 : Transport :=
  fun i _ => match i with O => Ok response_429_date | _ => Ok response_200 end.


Definition tickets_url : string := "http://api.example.com/tickets".

Definition fallback_tickets : pyval :=
  PyDict [("tickets", PyList [PyDict [("id", PyStr "fallback-123");
                                      ("status", PyStr "pending")]])].

(** [str(params)] on the arguments the examples pass: [None] and the
    empty dictionary. *)
Definition str_params (params : option dict) : string :=
  match params with
  | None => "None"
  | Some _ => "{}"
  end.

(** A coordinator with fallback tickets registered, as in the
    integration test. *)
Definition tickets_handler : NetworkFailureHandler.t :=
  NetworkFailureHandler.set_fallback_data
    (NetworkFailureHandler.__init__ handler_2) tickets_url fallback_tickets.

Definition tickets_key : string :=
  NetworkFailureHandler.cache_key str_params tickets_url None.

(** A 200 response whose body is the JSON text [null]. *)
Definition response_200_null : Response :=
  mkResponse 200 ∅ (Some PyNone) "null".

(** Rate limited, with a negative [Retry-After]. *)
Definition response_429_negative : Response :=
  mkResponse 429 {[ "Retry-After" := "-5" ]} None "".





Definition always_200 : Transport := fun _ _ => Ok response_200.

Definition always_200_null : Transport := fun _ _ => Ok response_200_null.

Definition jobs_url : string := "http://api.example.com/jobs".

(** A new coordinator, with nothing registered and nothing cached. *)
Definition new_handler : NetworkFailureHandler.t :=
  NetworkFailureHandler.__init__ handler_2.

(** [tickets_handler] after a fetch of the tickets that fell back to the
    registered payload. *)
Definition cached_handler : NetworkFailureHandler.t :=
  NetworkFailureHandler.cache_store tickets_handler tickets_key fallback_tickets.

(** [NetworkHandler(max_retries=0)] and [NetworkHandler(max_retries=-1)]. *)
Definition handler_0 : t := __init__ 0 1 10.
Definition handler_neg : t := __init__ (-1) 1 10.

End Examples.

(** ** Quantities and invariants the properties speak of *)

Module Measures.


(** No entry of the cache is [None].  [get_with_cache] stores a result only
    behind [if result is not None:]. *)
Definition cache_sound (self : NetworkFailureHandler.t) : Prop :=
  forall key, NetworkFailureHandler.cache_lookup self key <> Some PyNone.

End Measures.

(** * Properties of the retry loop *)

Section ExecutorFacts.

Import NetworkHandler.

Variable transport : Transport.
Variable self : t.

#[local] Abbreviation loop := (while_loop transport self).
#[local] Abbreviation body := (loop_body transport self).

(** The three ways one pass of the loop continues. *)
Lemma while_loop_exit req attempt w :
  (attempt > max_retries self)%Z -> loop req attempt w = (Ok PyNone, w).
Proof.
  intros Hgt. rewrite while_loop_equation_1.
  destruct (Z_le_gt_dec attempt (max_retries self)); [lia | reflexivity].
Qed.

Lemma while_loop_return req attempt w v w' :
  (attempt <= max_retries self)%Z ->
  body req (attempt + 1) w = (Ok (Return v), w') ->
  loop req attempt w = (Ok v, w').
Proof.
  intros Hle Hb. rewrite while_loop_equation_1.
  destruct (Z_le_gt_dec attempt (max_retries self)); [| lia].
  simpl. rewrite Hb. reflexivity.
Qed.

Lemma while_loop_continue req attempt w w' :
  (attempt <= max_retries self)%Z ->
  body req (attempt + 1) w = (Ok Continue, w') ->
  loop req attempt w = loop req (attempt + 1) w'.
Proof.
  intros Hle Hb. rewrite while_loop_equation_1.
  destruct (Z_le_gt_dec attempt (max_retries self)); [| lia].
  simpl. rewrite Hb. reflexivity.
Qed.

Lemma while_loop_raise req attempt w e w' :
  (attempt <= max_retries self)%Z ->
  body req (attempt + 1) w = (Raise e, w') ->
  loop req attempt w = (Raise e, w').
Proof.
  intros Hle Hb. rewrite while_loop_equation_1.
  destruct (Z_le_gt_dec attempt (max_retries self)); [| lia].
  simpl. rewrite Hb. reflexivity.
Qed.

(** One pass, by what the transport answers. *)
Lemma body_success req attempt w response :
  transport (calls w) req = Ok response ->
  (status_code response < 400)%Z ->
  body req attempt w =
    (Ok (Return (success_payload response)), mkWorld (S (calls w)) (sleeps w)).
Proof.
  intros Ht Hs.
  unfold loop_body, try_except, try_suite, bind, requests_request.
  rewrite Ht. apply Z.ltb_lt in Hs. rewrite Hs. reflexivity.
Qed.

Lemma body_definitive req attempt w response :
  transport (calls w) req = Ok response ->
  (400 <= status_code response)%Z ->
  status_code response <> 429%Z ->
  body req attempt w = (Ok (Return PyNone), mkWorld (S (calls w)) (sleeps w)).
Proof.
  intros Ht Hs Hn.
  unfold loop_body, try_except, try_suite, bind, requests_request.
  rewrite Ht.
  destruct (Z.ltb_spec (status_code response) 400); [lia |].
  destruct (Z.eqb_spec (status_code response) 429); [contradiction |].
  reflexivity.
Qed.

Lemma body_rate_limited req attempt w response secs :
  transport (calls w) req = Ok response ->
  status_code response = 429%Z ->
  retry_after self response = Ok secs ->
  (0 <= secs)%Z ->
  body req attempt w =
    (Ok Continue, mkWorld (S (calls w)) (sleeps w ++ [inject_Z secs])).
Proof.
  intros Ht Hs Hr Hp.
  unfold loop_body, try_except, try_suite, bind, requests_request, lift, time_sleep.
  rewrite Ht, Hs, Hr. simpl.
  assert (Hq : Qle_bool 0 (inject_Z secs) = true).
  { apply Qle_bool_iff. unfold Qle. simpl. lia. }
  rewrite Hq. reflexivity.
Qed.

Lemma body_rate_limited_malformed req attempt w response :
  transport (calls w) req = Ok response ->
  status_code response = 429%Z ->
  retry_after self response = Raise ValueError ->
  body req attempt w = (Ok (Return PyNone), mkWorld (S (calls w)) (sleeps w)).
Proof.
  intros Ht Hs Hr.
  unfold loop_body, try_except, try_suite, bind, requests_request, lift.
  rewrite Ht, Hs, Hr. reflexivity.
Qed.

Lemma body_unclassified req attempt w e :
  transport (calls w) req = Raise e ->
  isinstance e CRequestException = false ->
  body req attempt w = (Ok (Return PyNone), mkWorld (S (calls w)) (sleeps w)).
Proof.
  intros Ht He.
  unfold loop_body, try_except, try_suite, bind, requests_request.
  rewrite Ht. unfold except_clauses.
  destruct e; simpl in *; try discriminate; reflexivity.
Qed.



Lemma retry_after_raises response e :
  retry_after self response = Raise e -> e = ValueError.
Proof.
  unfold retry_after.
  destruct (headers response !! "Retry-After") as [s|]; [| discriminate].
  destruct (int_of_str s); [discriminate | congruence].
Qed.



(** A 429 response whose [Retry-After] is not an integer literal ends the
    call: [int] raises [ValueError], which the last [except] clause turns
    into [return None]. *)
Lemma rate_limited_malformed_returns_none req attempt w response s :
  (attempt <= max_retries self)%Z ->
  transport (calls w) req = Ok response ->
  status_code response = 429%Z ->
  headers response !! "Retry-After" = Some s ->
  int_of_str s = None ->
  loop req attempt w = (Ok PyNone, mkWorld (S (calls w)) (sleeps w)).
Proof.
  intros Hle Ht Hs Hh Hi.
  eapply while_loop_return; [exact Hle |].
  apply (body_rate_limited_malformed req _ _ response); try assumption.
  unfold retry_after. rewrite Hh, Hi. reflexivity.
Qed.




(** ** The executor's contract *)



(** C8. Whenever a pass of the loop receives a response with a status of
    400 or more other than 429, the call returns [None] at once: the
    transport is not invoked again and nothing is slept, whatever the
    number of attempts left.  In particular this holds for the first
    attempt of [make_request]. *)
Theorem definitive_failure_no_retry req attempt w response :
  (attempt <= max_retries self)%Z ->
  transport (calls w) req = Ok response ->
  (400 <= status_code response)%Z ->
  status_code response <> 429%Z ->
  loop req attempt w = (Ok PyNone, mkWorld (S (calls w)) (sleeps w)) /\
  (attempt = 0%Z ->
   forall method url headers data params,
     req = request_kwargs self method url headers data params ->
     make_request transport self method url headers data params w =
       (Ok PyNone, mkWorld (S (calls w)) (sleeps w))).
Proof.
  intros Hle Ht Hs Hn.
  assert (Hl : loop req attempt w = (Ok PyNone, mkWorld (S (calls w)) (sleeps w))).
  { eapply while_loop_return; [exact Hle |].
    apply (body_definitive req _ _ response); assumption. }
  split; [exact Hl |].
  intros -> method url headers data params ->. exact Hl.
Qed.

(** C9. Whenever a pass of the loop receives a response with a status
    below 400, the call returns a success payload: the decoded body when
    the body is JSON, otherwise the wrapper holding the raw text.  A body
    that is not JSON is not a failure: the wrapper is not [None].  In
    particular this holds for the first attempt of [make_request]. *)
Theorem success_below_400 req attempt w response :
  (attempt <= max_retries self)%Z ->
  transport (calls w) req = Ok response ->
  (status_code response < 400)%Z ->
  loop req attempt w =
    (Ok (success_payload response), mkWorld (S (calls w)) (sleeps w)) /\
  (attempt = 0%Z ->
   forall method url headers data params,
     req = request_kwargs self method url headers data params ->
     make_request transport self method url headers data params w =
       (Ok (success_payload response), mkWorld (S (calls w)) (sleeps w))) /\
  (forall v, json response = Some v -> success_payload response = v) /\
  (json response = None ->
   success_payload response =
     PyDict [("status", PyStr "success"); ("data", PyStr (text response))] /\
   success_payload response <> PyNone).
Proof.
  intros Hle Ht Hs.
  assert (Hl : loop req attempt w =
               (Ok (success_payload response), mkWorld (S (calls w)) (sleeps w))).
  { eapply while_loop_return; [exact Hle |].
    apply (body_success req _ _ response); assumption. }
  split; [exact Hl | split; [| split]].
  - intros -> method url headers data params ->. exact Hl.
  - intros v Hv. unfold success_payload. rewrite Hv. reflexivity.
  - intros Hj. unfold success_payload. rewrite Hj. split; [reflexivity | discriminate].
Qed.



End ExecutorFacts.

(** ** The executor on concrete transports *)

Section ExecutorExamples.

Import NetworkHandler Examples.



Lemma definitive_failure_no_retry_witness :
  make_request always_500 handler_2 "GET" "http://example.com" None None None world0 =
    (Ok PyNone, mkWorld 1 []).
Proof.
  refine (proj2 (definitive_failure_no_retry always_500 handler_2
                   (request_kwargs handler_2 "GET" "http://example.com" None None None)
                   0 world0 response_500 _ _ _ _)
                eq_refl "GET" "http://example.com" None None None eq_refl).
  - simpl. lia.
  - reflexivity.
  - simpl. lia.
  - simpl. lia.
Defined.

Lemma success_below_400_witness :
  make_request always_200_text handler_2 "GET" "http://example.com" None None None world0 =
    (Ok (PyDict [("status", PyStr "success"); ("data", PyStr "pong")]), mkWorld 1 []).
Proof.
  refine (proj1 (proj2 (success_below_400 always_200_text handler_2
                   (request_kwargs handler_2 "GET" "http://example.com" None None None)
                   0 world0 response_200_text _ _ _))
                eq_refl "GET" "http://example.com" None None None eq_refl).
  - simpl. lia.
  - reflexivity.
  - simpl. lia.
Defined.




(** C3 on the code.  A 429 response whose [Retry-After] is an HTTP date:
    [int] raises [ValueError], the last [except] clause catches it, and the
    call returns [None] after one invocation, without sleeping and without
    trying again, although three attempts were left and the next response
    would have been a 200. *)
Theorem malformed_retry_after_abandons :
  make_request date_429_then_200 default "GET" tickets_url None None None world0 =
    (Ok PyNone, mkWorld 1 []).
Proof. vm_compute. reflexivity. Qed.

(** A 200 response whose body is the JSON text [null] decodes to [None],
    and that is what the call returns. *)
Lemma json_null_is_none :
  make_request (fun _ _ => Ok response_200_null) handler_2 "GET" tickets_url
               None None None world0 = (Ok PyNone, mkWorld 1 []).
Proof. vm_compute. reflexivity. Qed.

(** A negative base delay is not a usable configuration: [time.sleep]
    rejects it, and since [_handle_retry] runs inside an [except] clause
    the [ValueError] leaves [make_request]. *)
Lemma negative_base_delay_raises :
  make_request always_timeout (__init__ 2 (-1) 1) "GET" tickets_url
               None None None world0 = (Raise ValueError, mkWorld 1 []).
Proof. vm_compute. reflexivity. Qed.

(** With no [Retry-After] header, the sleep is [int(base_delay)]: zero
    seconds for a base delay of 0.1. *)
Lemma absent_retry_after_truncates :
  retry_after handler_2 (mkResponse 429 ∅ None "") = Ok 0%Z.
Proof. vm_compute. reflexivity. Qed.

End ExecutorExamples.

(** * Properties of the fallback and cache layer *)

Section CoordinatorFacts.

Import NetworkFailureHandler.

Variable str : option dict -> string.

Lemma cache_lookup_store self key result :
  cache_lookup (cache_store self key result) key = Some result.
Proof. unfold cache_lookup, cache_store. simpl. apply lookup_insert_eq. Qed.

(** A key that is present is served from the cache: the transport is not
    consulted and nothing changes. *)
Lemma get_with_cache_hit transport self url headers params w cached :
  cache_lookup self (cache_key str url params) = Some cached ->
  get_with_cache transport str self url headers params w = (Ok (cached, self), w).
Proof. intros Hc. unfold get_with_cache. rewrite Hc. reflexivity. Qed.

(** C1, as the code has it.  When the key is not cached, the executor
    returns [None] and a fallback payload is registered for the URL,
    [get_with_cache] returns that payload and stores it in the cache under
    the key of (URL, params); a later call with the same URL and params is
    served from the cache and does not reach the network. *)
Theorem fallback_is_cached transport self url headers params w w' fb :
  cache_lookup self (cache_key str url params) = None ->
  NetworkHandler.get transport (network_handler self) url headers params w =
    (Ok PyNone, w') ->
  fallback_data self !! url = Some fb ->
  fb <> PyNone ->
  let self' := cache_store self (cache_key str url params) fb in
  get_with_cache transport str self url headers params w = (Ok (fb, self'), w') /\
  cache_lookup self' (cache_key str url params) = Some fb /\
  (forall transport2 headers2 w2,
      get_with_cache transport2 str self' url headers2 params w2 =
        (Ok (fb, self'), w2)).
Proof.
  intros Hmiss Hget Hfb Hne self'.
  assert (Hstored : cache_lookup self' (cache_key str url params) = Some fb)
    by apply cache_lookup_store.
  split; [| split].
  - unfold get_with_cache. rewrite Hmiss. unfold bind. rewrite Hget.
    simpl. rewrite Hfb.
    destruct fb; try reflexivity. contradiction.
  - exact Hstored.
  - intros transport2 headers2 w2. apply get_with_cache_hit. exact Hstored.
Qed.

(** C6.  Once a call of [get_with_cache] has obtained data from the
    network, a second call with the same URL and params returns the same
    data without any network call, whatever the transport would do then. *)
Theorem get_with_cache_idempotent transport self url headers params w w' r :
  cache_lookup self (cache_key str url params) = None ->
  NetworkHandler.get transport (network_handler self) url headers params w =
    (Ok r, w') ->
  r <> PyNone ->
  exists self',
    get_with_cache transport str self url headers params w = (Ok (r, self'), w') /\
    (forall transport2 headers2 w2,
        get_with_cache transport2 str self' url headers2 params w2 =
          (Ok (r, self'), w2)).
Proof.
  intros Hmiss Hget Hne.
  exists (cache_store self (cache_key str url params) r). split.
  - unfold get_with_cache. rewrite Hmiss. unfold bind. rewrite Hget.
    destruct r; try reflexivity. contradiction.
  - intros transport2 headers2 w2. apply get_with_cache_hit.
    apply cache_lookup_store.
Qed.


End CoordinatorFacts.

(** ** The coordinator on concrete transports *)

Section CoordinatorExamples.

Import NetworkHandler NetworkFailureHandler Examples.

(** C1, as the specification words it, fails: after a call that fell back
    to the registered payload, the cache does hold an entry under the key,
    and the next call returns the fallback without invoking a transport
    that would now answer 200. *)
Lemma fallback_is_memoized :
  let self1 := cache_store tickets_handler tickets_key fallback_tickets in
  get_with_cache always_500 str_params tickets_handler tickets_url None None world0 =
    (Ok (fallback_tickets, self1), mkWorld 1 []) /\
  cache_lookup self1 tickets_key <> None /\
  get_with_cache (fun _ _ => Ok response_200) str_params self1 tickets_url None None
    (mkWorld 1 []) = (Ok (fallback_tickets, self1), mkWorld 1 []).
Proof.
  split; [| split].
  - vm_compute. reflexivity.
  - vm_compute. discriminate.
  - vm_compute. reflexivity.
Qed.

Lemma fallback_is_cached_witness :
  let self1 := cache_store tickets_handler tickets_key fallback_tickets in
  get_with_cache always_500 str_params tickets_handler tickets_url None None world0 =
    (Ok (fallback_tickets, self1), mkWorld 1 []) /\
  cache_lookup self1 tickets_key = Some fallback_tickets /\
  (forall transport2 headers2 w2,
      get_with_cache transport2 str_params self1 tickets_url headers2 None w2 =
        (Ok (fallback_tickets, self1), w2)).
Proof.
  apply (fallback_is_cached str_params always_500 tickets_handler tickets_url
           None None world0 (mkWorld 1 []) fallback_tickets).
  - vm_compute. reflexivity.
  - vm_compute. reflexivity.
  - vm_compute. reflexivity.
  - discriminate.
Defined.

Lemma get_with_cache_idempotent_witness :
  exists self',
    get_with_cache (timeouts_then_200 0) str_params tickets_handler tickets_url
                   None None world0 = (Ok (success_body, self'), mkWorld 1 []) /\
    (forall transport2 headers2 w2,
        get_with_cache transport2 str_params self' tickets_url headers2 None w2 =
          (Ok (success_body, self'), w2)).
Proof.
  apply (get_with_cache_idempotent str_params (timeouts_then_200 0) tickets_handler
           tickets_url None None world0 (mkWorld 1 []) success_body).
  - vm_compute. reflexivity.
  - vm_compute. reflexivity.
  - discriminate.
Defined.



End CoordinatorExamples.

(** * Further properties of the retry loop *)

Section ExecutorBounds.

Import NetworkHandler Measures.

Variable transport : Transport.
Variable self : t.

#[local] Abbreviation loop' := (while_loop transport self).
#[local] Abbreviation body' := (loop_body transport self).

(** Case analysis on the innermost scrutinee of the goal. *)
Ltac break_inner :=
  match goal with
  | |- context [match ?x with _ => _ end] =>
      lazymatch x with
      | context [match _ with _ => _ end] => fail
      | _ => destruct x eqn:?
      end
  end.

(** Every pass of the loop invokes the transport exactly once, however the
    pass ends. *)
Lemma body_calls req attempt w :
  calls (snd (body' req attempt w)) = S (calls w).
Proof.
  unfold loop_body, try_except, try_suite, bind, requests_request, lift,
    time_sleep, except_clauses, _handle_retry, ret.
  repeat (break_inner; simpl; unfold bind, time_sleep); reflexivity.
Qed.

Lemma loop_calls_bounded req (n : nat) :
  forall attempt w,
    Z.to_nat (max_retries self + 1 - attempt) = n ->
    (calls w <= calls (snd (loop' req attempt w)) <= calls w + n)%nat.
Proof.
  induction n as [| n IH]; intros attempt w Hn.
  - rewrite while_loop_exit by lia. simpl. lia.
  - assert (Hle : (attempt <= max_retries self)%Z) by lia.
    pose proof (body_calls req (attempt + 1) w) as Hc.
    destruct (body' req (attempt + 1) w) as [[[v |] | e] w1] eqn:Hb; simpl in Hc.
    + rewrite (while_loop_return _ _ _ _ _ _ _ Hle Hb). simpl. lia.
    + rewrite (while_loop_continue _ _ _ _ _ _ Hle Hb).
      specialize (IH (attempt + 1)%Z w1 ltac:(lia)). lia.
    + rewrite (while_loop_raise _ _ _ _ _ _ _ Hle Hb). simpl. lia.
Qed.

(** X1. Whatever the transport does and however the call ends,
    [make_request] invokes the transport at most [max_retries + 1]
    times. *)
Theorem transport_calls_bounded method url headers data params w :
  let w' := snd (make_request transport self method url headers data params w) in
  (calls w <= calls w' <= calls w + Z.to_nat (max_retries self + 1))%nat.
Proof.
  intros w'. subst w'. unfold make_request.
  apply loop_calls_bounded. f_equal. lia.
Qed.

(** X2. With a negative [max_retries] the loop is never entered: the call
    returns [None] without invoking the transport and without sleeping. *)
Theorem negative_max_retries_no_attempt method url headers data params w :
  (max_retries self < 0)%Z ->
  make_request transport self method url headers data params w = (Ok PyNone, w).
Proof.
  intros Hneg. unfold make_request. apply while_loop_exit. lia.
Qed.

(** On the last permitted attempt a retryable failure is not followed by a
    sleep, whatever the base delay. *)
Lemma body_retryable_last req attempt w e :
  transport (calls w) req = Raise e ->
  isinstance e CRequestException = true ->
  (attempt > max_retries self)%Z ->
  body' req attempt w = (Ok Continue, mkWorld (S (calls w)) (sleeps w)).
Proof.
  intros Ht He Hgt.
  unfold loop_body, try_except, try_suite, requests_request.
  unfold bind at 1. rewrite Ht. unfold except_clauses, _handle_retry.
  destruct (Z.leb_spec attempt (max_retries self)); [lia |].
  destruct e; simpl in He; try discriminate; reflexivity.
Qed.

Lemma body_rate_limited_negative req attempt w response secs :
  transport (calls w) req = Ok response ->
  status_code response = 429%Z ->
  retry_after self response = Ok secs ->
  (secs < 0)%Z ->
  body' req attempt w = (Ok (Return PyNone), mkWorld (S (calls w)) (sleeps w)).
Proof.
  intros Ht Hs Hr Hneg.
  unfold loop_body, try_except, try_suite, bind, requests_request, lift, time_sleep.
  rewrite Ht, Hs, Hr. simpl.
  assert (Hq : Qle_bool 0 (inject_Z secs) = false).
  { apply not_true_is_false. rewrite Qle_bool_iff. unfold Qle. simpl. lia. }
  rewrite Hq. reflexivity.
Qed.

(** X3. With [max_retries = 0] there is exactly one attempt and no retry,
    whatever the transport does and whatever the base delay: the call
    returns after one invocation, and it has slept only if the answer was a
    429. *)
Theorem zero_retries_single_attempt method url headers data params w :
  max_retries self = 0%Z ->
  let req := request_kwargs self method url headers data params in
  exists v w',
    make_request transport self method url headers data params w = (Ok v, w') /\
    calls w' = S (calls w) /\
    ((forall response, transport (calls w) req = Ok response ->
                       status_code response <> 429%Z) ->
     sleeps w' = sleeps w).
Proof.
  intros H0 req. unfold make_request. fold req.
  assert (Hle : (0 <= max_retries self)%Z) by lia.
  assert (Hreturn : forall v,
             body' req (0 + 1) w = (Ok (Return v), mkWorld (S (calls w)) (sleeps w)) ->
             exists v w',
               loop' req 0 w = (Ok v, w') /\ calls w' = S (calls w) /\
               ((forall response, transport (calls w) req = Ok response ->
                                  status_code response <> 429%Z) ->
                sleeps w' = sleeps w)).
  { intros v Hbody. exists v, (mkWorld (S (calls w)) (sleeps w)).
    split; [| split; reflexivity].
    eapply while_loop_return; [exact Hle | exact Hbody]. }
  destruct (transport (calls w) req) as [response | e] eqn:Ht.
  - destruct (Z.ltb_spec (status_code response) 400) as [Hlt | Hge].
    + eapply Hreturn.
      apply body_success with (response := response); assumption.
    + destruct (Z.eq_dec (status_code response) 429) as [H429 | Hne].
      * destruct (retry_after self response) as [secs | e] eqn:Hr.
        -- destruct (Z.le_gt_cases 0 secs) as [Hs | Hs].
           ++ exists PyNone, (mkWorld (S (calls w)) (sleeps w ++ [inject_Z secs])).
              split; [| split; [reflexivity |]].
              ** erewrite while_loop_continue; [| exact Hle |].
                 2: { apply body_rate_limited with (response := response) (secs := secs);
                      assumption. }
                 apply while_loop_exit. lia.
              ** intros Hno. exfalso. exact (Hno response eq_refl H429).
           ++ eapply Hreturn.
              apply body_rate_limited_negative with (response := response) (secs := secs);
                assumption.
        -- eapply Hreturn.
           apply retry_after_raises in Hr as He. subst e.
           apply body_rate_limited_malformed with (response := response); assumption.
      * eapply Hreturn.
        apply body_definitive with (response := response); assumption.
  - destruct (isinstance e CRequestException) eqn:He.
    + exists PyNone, (mkWorld (S (calls w)) (sleeps w)).
      split; [| split; reflexivity].
      erewrite while_loop_continue; [| exact Hle |].
      2: { apply body_retryable_last with (e := e); [exact Ht | exact He | lia]. }
      apply while_loop_exit. lia.
    + eapply Hreturn.
      apply body_unclassified with (e := e); assumption.
Qed.




(** X7. A 429 whose [Retry-After] is a negative integer ends the call:
    [time.sleep] rejects the duration, the last [except] clause returns
    [None], and neither a sleep nor a further attempt takes place. *)
Theorem negative_retry_after_returns_none req attempt w response s secs :
  (attempt <= max_retries self)%Z ->
  transport (calls w) req = Ok response ->
  status_code response = 429%Z ->
  headers response !! "Retry-After" = Some s ->
  int_of_str s = Some secs ->
  (secs < 0)%Z ->
  loop' req attempt w = (Ok PyNone, mkWorld (S (calls w)) (sleeps w)).
Proof.
  intros Hle Ht Hs Hh Hi Hneg.
  eapply while_loop_return; [exact Hle |].
  apply body_rate_limited_negative with (response := response) (secs := secs);
    try assumption.
  unfold retry_after. rewrite Hh, Hi. reflexivity.
Qed.






End ExecutorBounds.

Section SameRequest.

Import NetworkHandler.

Variables t1 t2 : Transport.
Variable self : t.




End SameRequest.

(** ** The further properties on concrete transports *)

Section ExecutorBoundsExamples.

Import NetworkHandler Examples Measures.

Lemma negative_max_retries_no_attempt_witness :
  make_request always_200 handler_neg "GET" tickets_url None None None world0 =
    (Ok PyNone, world0).
Proof.
  apply (negative_max_retries_no_attempt always_200 handler_neg
           "GET" tickets_url None None None world0).
  simpl. lia.
Defined.

Lemma zero_retries_single_attempt_witness :
  exists v w',
    make_request always_timeout handler_0 "GET" tickets_url None None None world0 =
      (Ok v, w') /\
    calls w' = 1%nat /\ sleeps w' = [].
Proof.
  destruct (zero_retries_single_attempt always_timeout handler_0
              "GET" tickets_url None None None world0 eq_refl)
    as (v & w' & Hrun & Hcalls & Hsleeps).
  exists v, w'. split; [exact Hrun | split; [exact Hcalls |]].
  apply Hsleeps. intros response Hresp. discriminate Hresp.
Defined.




Lemma negative_retry_after_returns_none_witness :
  make_request (fun _ _ => Ok response_429_negative) default "GET" tickets_url
               None None None world0 = (Ok PyNone, mkWorld 1 []).
Proof.
  apply (negative_retry_after_returns_none (fun _ _ => Ok response_429_negative) default
           (request_kwargs default "GET" tickets_url None None None)
           0 world0 response_429_negative "-5" (-5)).
  - simpl. lia.
  - reflexivity.
  - reflexivity.
  - vm_compute. reflexivity.
  - vm_compute. reflexivity.
  - lia.
Defined.




End ExecutorBoundsExamples.

(** * Further properties of the fallback and cache layer *)

Section CoordinatorInvariants.

Import NetworkFailureHandler Measures.

Variable str : option dict -> string.

(** What a call does when the key is not cached, in terms of what the
    executor returned. *)
Lemma get_with_cache_miss transport self url headers params w r w' :
  cache_lookup self (cache_key str url params) = None ->
  NetworkHandler.get transport (network_handler self) url headers params w =
    (Ok r, w') ->
  get_with_cache transport str self url headers params w =
    let result :=
      match is_none r, fallback_data self !! url with
      | true, Some fb => fb
      | _, _ => r
      end in
    if negb (is_none result)
    then (Ok (result, cache_store self (cache_key str url params) result), w')
    else (Ok (no_data_marker, self), w').
Proof.
  intros Hmiss Hget. unfold get_with_cache. rewrite Hmiss.
  unfold bind. rewrite Hget. simpl.
  destruct (is_none r), (fallback_data self !! url) as [fb |]; simpl;
    try destruct (is_none fb); try destruct (is_none r); reflexivity.
Qed.

Lemma cache_lookup_store_ne self key key' result :
  key <> key' ->
  cache_lookup (cache_store self key result) key' = cache_lookup self key'.
Proof.
  intros Hne. unfold cache_lookup, cache_store. simpl.
  rewrite lookup_insert_ne by exact Hne.
  destruct (_cache self); [reflexivity | apply lookup_empty].
Qed.

(** X11. When the executor returns [None] and no fallback payload is
    registered for the URL (or the registered one is [None]),
    [get_with_cache] returns the "No data available" marker and leaves the
    instance as it was: nothing is cached under the key, so the next call
    with this key goes to the network again. *)
Theorem failure_without_fallback_not_cached transport self url headers params w w' :
  cache_lookup self (cache_key str url params) = None ->
  NetworkHandler.get transport (network_handler self) url headers params w =
    (Ok PyNone, w') ->
  fallback_data self !! url = None \/ fallback_data self !! url = Some PyNone ->
  get_with_cache transport str self url headers params w =
    (Ok (no_data_marker, self), w') /\
  (forall transport2 headers2 w2 r w2',
      NetworkHandler.get transport2 (network_handler self) url headers2 params w2 =
        (Ok r, w2') ->
      r <> PyNone ->
      get_with_cache transport2 str self url headers2 params w2 =
        (Ok (r, cache_store self (cache_key str url params) r), w2')).
Proof.
  intros Hmiss Hget Hfb. split.
  - rewrite (get_with_cache_miss _ _ _ _ _ _ _ _ Hmiss Hget).
    destruct Hfb as [-> | ->]; reflexivity.
  - intros transport2 headers2 w2 r w2' Hget2 Hr.
    rewrite (get_with_cache_miss _ _ _ _ _ _ _ _ Hmiss Hget2).
    destruct r; try contradiction; reflexivity.
Qed.

(** X12. A call of [get_with_cache] never changes or removes an entry the
    cache already holds, whatever URL and params it is made with, and
    touches neither the fallback table nor the executor's configuration. *)
Theorem get_with_cache_keeps_entries
    transport self url headers params w v self' w' :
  get_with_cache transport str self url headers params w = (Ok (v, self'), w') ->
  (forall key cached,
      cache_lookup self key = Some cached -> cache_lookup self' key = Some cached) /\
  fallback_data self' = fallback_data self /\
  network_handler self' = network_handler self.
Proof.
  intros Hrun.
  destruct (cache_lookup self (cache_key str url params)) as [c |] eqn:Hlook.
  - rewrite (get_with_cache_hit str transport self url headers params w c Hlook) in Hrun.
    injection Hrun as <- <- <-. auto.
  - destruct (NetworkHandler.get transport (network_handler self) url headers params w)
      as [[r | e] w1] eqn:Hget.
    + rewrite (get_with_cache_miss _ _ _ _ _ _ _ _ Hlook Hget) in Hrun.
      cbv zeta in Hrun.
      destruct (negb _) in Hrun.
      * injection Hrun as <- <- <-. split; [| split; reflexivity].
        intros key cached Hkey.
        destruct (decide (cache_key str url params = key)) as [<- | Hne].
        -- congruence.
        -- rewrite cache_lookup_store_ne by exact Hne. exact Hkey.
      * injection Hrun as <- <- <-. auto.
    + unfold get_with_cache, bind in Hrun. rewrite Hlook, Hget in Hrun.
      discriminate Hrun.
Qed.

(** X13. [set_fallback_data] overwrites: after two registrations for a
    URL, a failed fetch of an uncached key returns the payload registered
    last, and the fallback of any other URL is what it was. *)
Theorem last_registered_fallback_is_used
    transport self url a b headers params w w' :
  cache_lookup self (cache_key str url params) = None ->
  NetworkHandler.get transport (network_handler self) url headers params w =
    (Ok PyNone, w') ->
  b <> PyNone ->
  let self2 := set_fallback_data (set_fallback_data self url a) url b in
  get_with_cache transport str self2 url headers params w =
    (Ok (b, cache_store self2 (cache_key str url params) b), w') /\
  (forall url', url' <> url ->
     fallback_data self2 !! url' = fallback_data self !! url').
Proof.
  intros Hmiss Hget Hb self2. split.
  - rewrite (get_with_cache_miss transport self2 url headers params w PyNone w').
    + unfold self2, set_fallback_data. simpl. rewrite lookup_insert_eq.
      destruct b; try contradiction; reflexivity.
    + exact Hmiss.
    + exact Hget.
  - intros url' Hne. unfold self2, set_fallback_data. simpl.
    rewrite !lookup_insert_ne by congruence. reflexivity.
Qed.

(** X14. Once a key is cached, registering a fallback payload for its URL
    changes nothing for that key: the cached value is returned, without a
    network call. *)
Theorem cached_entry_shadows_fallback
    transport self url fb headers params w cached :
  cache_lookup self (cache_key str url params) = Some cached ->
  get_with_cache transport str (set_fallback_data self url fb) url headers params w =
    (Ok (cached, set_fallback_data self url fb), w).
Proof.
  intros Hhit. apply get_with_cache_hit. exact Hhit.
Qed.

(** X15. A response below 400 whose body is the JSON text [null] decodes
    to [None], which [with_fallback] cannot tell from a failed request: it
    returns the fallback payload (or the error marker), after that single
    invocation. *)
Theorem null_body_taken_for_failure
    transport self method url fb headers data params w response :
  (0 <= NetworkHandler.max_retries (network_handler self))%Z ->
  transport (calls w)
    (NetworkHandler.request_kwargs (network_handler self) method url headers data params)
    = Ok response ->
  (NetworkHandler.status_code response < 400)%Z ->
  NetworkHandler.json response = Some PyNone ->
  with_fallback transport self method url fb headers data params w =
    (Ok (if truthy fb then fb else error_marker), mkWorld (S (calls w)) (sleeps w)).
Proof.
  intros Hle Ht Hs Hj.
  unfold with_fallback, bind, NetworkHandler.make_request.
  erewrite while_loop_return; [| exact Hle |].
  2: { apply body_success with (response := response); [exact Ht | exact Hs]. }
  unfold NetworkHandler.success_payload. rewrite Hj. simpl.
  destruct (truthy fb); reflexivity.
Qed.

Lemma cache_sound_init network_handler :
  cache_sound (NetworkFailureHandler.__init__ network_handler).
Proof. intros key. unfold cache_lookup. simpl. discriminate. Qed.

Lemma cache_sound_set_fallback_data self url data :
  cache_sound self -> cache_sound (set_fallback_data self url data).
Proof. intros Hs key. exact (Hs key). Qed.



End CoordinatorInvariants.

Section CoordinatorInvariantsExamples.

Import NetworkHandler NetworkFailureHandler Examples Measures.

Lemma failure_without_fallback_not_cached_witness :
  get_with_cache always_500 str_params new_handler tickets_url None None world0 =
    (Ok (no_data_marker, new_handler), mkWorld 1 []) /\
  get_with_cache always_200 str_params new_handler tickets_url None None (mkWorld 1 []) =
    (Ok (success_body, cache_store new_handler tickets_key success_body), mkWorld 2 []).
Proof.
  destruct (failure_without_fallback_not_cached str_params always_500 new_handler
              tickets_url None None world0 (mkWorld 1 []))
    as [Hfirst Hnext].
  - vm_compute. reflexivity.
  - vm_compute. reflexivity.
  - left. vm_compute. reflexivity.
  - split; [exact Hfirst |].
    apply (Hnext always_200 None (mkWorld 1 []) success_body (mkWorld 2 [])).
    + vm_compute. reflexivity.
    + discriminate.
Defined.

Lemma get_with_cache_keeps_entries_witness :
  cache_lookup (cache_store cached_handler (cache_key str_params jobs_url None) success_body)
               tickets_key = Some fallback_tickets.
Proof.
  refine (proj1 (get_with_cache_keeps_entries str_params always_200 cached_handler
                   jobs_url None None world0 success_body
                   (cache_store cached_handler (cache_key str_params jobs_url None)
                                success_body)
                   (mkWorld 1 []) _) tickets_key fallback_tickets _).
  - vm_compute. reflexivity.
  - vm_compute. reflexivity.
Defined.

Lemma last_registered_fallback_is_used_witness :
  exists self',
    get_with_cache always_500 str_params
      (set_fallback_data (set_fallback_data new_handler tickets_url success_body)
                         tickets_url fallback_tickets)
      tickets_url None None world0 = (Ok (fallback_tickets, self'), mkWorld 1 []).
Proof.
  eexists.
  refine (proj1 (last_registered_fallback_is_used str_params always_500 new_handler
                   tickets_url success_body fallback_tickets None None world0
                   (mkWorld 1 []) _ _ _)).
  - vm_compute. reflexivity.
  - vm_compute. reflexivity.
  - discriminate.
Defined.

Lemma cached_entry_shadows_fallback_witness :
  get_with_cache always_200 str_params
    (set_fallback_data cached_handler tickets_url success_body)
    tickets_url None None world0 =
    (Ok (fallback_tickets, set_fallback_data cached_handler tickets_url success_body),
     world0).
Proof.
  apply (cached_entry_shadows_fallback str_params always_200 cached_handler
           tickets_url success_body None None world0 fallback_tickets).
  vm_compute. reflexivity.
Defined.

Lemma null_body_taken_for_failure_witness :
  with_fallback always_200_null tickets_handler "GET" tickets_url fallback_tickets
                None None None world0 = (Ok fallback_tickets, mkWorld 1 []).
Proof.
  apply (null_body_taken_for_failure always_200_null tickets_handler "GET" tickets_url
           fallback_tickets None None None world0 response_200_null).
  - simpl. lia.
  - reflexivity.
  - simpl. lia.
  - reflexivity.
Defined.



End CoordinatorInvariantsExamples.

Section CacheKeys.

Import NetworkFailureHandler.

Variable str : option dict -> string.

Lemma append_inj_r (s a b : string) : s +:+ a = s +:+ b -> a = b.
Proof.
  induction s as [| c s IH]; simpl; intros H; [exact H |].
  injection H as H. exact (IH H).
Qed.

Lemma cache_key_params url params1 params2 :
  str params1 <> str params2 ->
  cache_key str url params1 <> cache_key str url params2.
Proof.
  intros Hne Heq. unfold cache_key in Heq.
  apply append_inj_r, append_inj_r in Heq. contradiction.
Qed.

(** X18. [params=None] and [params={}] make the executor send the very
    same request, but they are cached apart, because [str(None)] and
    [str({})] differ: after a fetch with [None] has been cached, a call
    with the empty dictionary misses the cache and returns what the
    network answers then. *)
Theorem none_and_empty_params_cached_apart
    transport self url headers w r w' :
  str None <> str (Some []) ->
  cache_lookup self (cache_key str url (Some [])) = None ->
  NetworkHandler.get transport (network_handler self) url headers (Some []) w =
    (Ok r, w') ->
  r <> PyNone ->
  forall cached,
    let self1 := cache_store self (cache_key str url None) cached in
    NetworkHandler.request_kwargs (network_handler self1) "GET" url headers None None =
    NetworkHandler.request_kwargs (network_handler self1) "GET" url headers None (Some []) /\
    get_with_cache transport str self1 url headers (Some []) w =
      (Ok (r, cache_store self1 (cache_key str url (Some [])) r), w').
Proof.
  intros Hstr Hmiss Hget Hr cached self1. split; [reflexivity |].
  rewrite (get_with_cache_miss str transport self1 url headers (Some []) w r w').
  - destruct r; try contradiction; reflexivity.
  - unfold self1. rewrite cache_lookup_store_ne; [exact Hmiss |].
    apply cache_key_params. exact Hstr.
  - exact Hget.
Qed.

End CacheKeys.

Section CacheKeysExamples.

Import NetworkHandler NetworkFailureHandler Examples.

Lemma none_and_empty_params_cached_apart_witness :
  get_with_cache always_200 str_params cached_handler tickets_url None (Some []) world0 =
    (Ok (success_body,
         cache_store cached_handler (cache_key str_params tickets_url (Some []))
                     success_body),
     mkWorld 1 []).
Proof.
  refine (proj2 (none_and_empty_params_cached_apart str_params always_200 tickets_handler
                   tickets_url None world0 success_body (mkWorld 1 []) _ _ _ _
                   fallback_tickets)).
  - vm_compute. discriminate.
  - vm_compute. reflexivity.
  - vm_compute. reflexivity.
  - discriminate.
Defined.

End CacheKeysExamples.
